(** * CASMpython: the libccasm binding layer and the structure converter

    A shallow embedding of [casm/project/api.py] (class [API], the ctypes
    binding of the libccasm C interface) and of the [ASEIntermediary] class of
    [casm/scripts/casm_convert.py], with the properties of their
    specification stated and proved over the embedding.

    Layout: Part I holds the definitions (Python values and exceptions, the
    converter, the library locator and session, the API methods over an
    abstract native library, and a model of the native library), Part II the
    theorems. *)

From Stdlib Require Import ZArith QArith Lia Ascii String List.
From Stdlib.Strings Require Import Byte.
From stdpp Require Import base option list gmap strings.

Set Default Proof Using "Type".
Set Warnings "-register-all".

(** * Part I: definitions *)

(** ** Python values, exceptions and results *)

Module Py.

(** The exceptions the embedded code can raise or let through.  The last two
    are the error types named by the specification of the locator; no line of
    the source constructs them. *)
Inductive exn : Type :=
| NameError (name : string)
| KeyError (key : string)
| IndexError
| TypeError (what : string)
| AttributeError (attr : string)
| OSError (path : string)
| ErrorReturnCode (cmd : string) (code : Z)
| ExternalError (what : string)
| PyException (msg : string)
| PyExceptionFrom (msg : string) (cause : exn)
| ExecutableNotFoundError
| LibraryNotFoundError (exe : string) (listing : string).

(** The result of evaluating a Python expression or call: a value or a raised
    exception. *)
Inductive result (A : Type) : Type :=
| Ok (a : A)
| Raise (e : exn).
Arguments Ok {A} a.
Arguments Raise {A} e.

#[export] Instance result_ret : MRet result := fun _ a => Ok a.
#[export] Instance result_bind : MBind result := fun _ _ f m =>
  match m with Ok a => f a | Raise e => Raise e end.

Definition is_Ok {A} (r : result A) : bool :=
  match r with Ok _ => true | Raise _ => false end.

(** JSON-like data: what [json.load] and [ndarray.tolist] produce, as far as
    the converter touches it. *)
Inductive jval : Type :=
| JStr (s : string)
| JNum (x : Q)
| JList (l : list jval).

(** *** Strings *)

Definition chr (n : nat) : ascii := ascii_of_nat n.

(** [str.isspace] on one byte of a Python 2 [str]. *)
Definition is_space (c : ascii) : bool :=
  let n := nat_of_ascii c in
  (n =? 32)%nat || ((9 <=? n)%nat && (n <=? 13)%nat).

Fixpoint split_from (cur : option string) (s : string) : list string :=
  match s with
  | EmptyString => match cur with Some w => [w] | None => [] end
  | String c s' =>
      if is_space c then
        match cur with
        | Some w => w :: split_from None s'
        | None => split_from None s'
        end
      else
        split_from (Some (match cur with
                          | Some w => w +:+ String c EmptyString
                          | None => String c EmptyString
                          end)) s'
  end.

(** [s.split()]: the maximal runs of non-whitespace bytes of [s]. *)
Definition split (s : string) : list string := split_from None s.

(** [l[i]] on a list, for a non-negative index. *)
Definition index {A} (l : list A) (i : nat) : result A :=
  match l !! i with Some x => Ok x | None => Raise IndexError end.

(** [s.replace(old, new)] for a non-empty [old]: scan left to right, and at
    each match emit [new] and skip the matched bytes.  [skip] counts the bytes
    of the current match still to drop. *)
Fixpoint replace_from (old new : string) (skip : nat) (s : string) : string :=
  match s with
  | EmptyString => EmptyString
  | String c s' =>
      match skip with
      | S k => replace_from old new k s'
      | O =>
          if String.prefix old s
          then new +:+ replace_from old new (String.length old - 1) s'
          else String c (replace_from old new 0 s')
      end
  end.

(** With an empty [old], Python puts [new] before every byte and at the end. *)
Fixpoint intersperse_str (new s : string) : string :=
  match s with
  | EmptyString => new
  | String c s' => new +:+ String c (intersperse_str new s')
  end.

Definition replace (s old new : string) : string :=
  match old with
  | EmptyString => intersperse_str new s
  | _ => replace_from old new 0 s
  end.

Fixpoint contains (pat s : string) : bool :=
  String.prefix pat s ||
  match s with
  | EmptyString => false
  | String _ s' => contains pat s'
  end.

(** Position just after the last ['/'] of [s] (0 when there is none):
    [s.rfind('/') + 1]. *)
Fixpoint after_last_slash (s : string) : nat :=
  match s with
  | EmptyString => 0
  | String c s' =>
      let r := after_last_slash s' in
      if (0 <? r)%nat then S r
      else if Ascii.eqb c "/"%char then 1 else 0
  end.

Fixpoint all_slashes (s : string) : bool :=
  match s with
  | EmptyString => true
  | String c s' => Ascii.eqb c "/"%char && all_slashes s'
  end.

(** [s.rstrip('/')]. *)
Fixpoint rstrip_slash (s : string) : string :=
  match s with
  | EmptyString => EmptyString
  | String c s' =>
      if all_slashes s then EmptyString else String c (rstrip_slash s')
  end.

(** [posixpath.dirname]. *)
Definition dirname (p : string) : string :=
  let head := String.substring 0 (after_last_slash p) p in
  if all_slashes head then head else rstrip_slash head.

Definition lower_char (c : ascii) : ascii :=
  let n := nat_of_ascii c in
  if (65 <=? n)%nat && (n <=? 90)%nat then ascii_of_nat (n + 32) else c.

(** [s.lower()] on ASCII. *)
Fixpoint lower (s : string) : string :=
  match s with
  | EmptyString => EmptyString
  | String c s' => String (lower_char c) (lower s')
  end.

(** A [dict] with string keys and string values, in insertion order. *)
Definition strdict : Type := list (string * string).

Fixpoint dict_get (d : strdict) (k : string) : option string :=
  match d with
  | [] => None
  | (k', v) :: d' => if String.eqb k' k then Some v else dict_get d' k
  end.

Definition dict_keys (d : strdict) : list string := map fst d.

(** [d[k] = v]: overwrite in place when the key is there, append otherwise. *)
Fixpoint dict_set (d : strdict) (k v : string) : strdict :=
  match d with
  | [] => [(k, v)]
  | (k', v') :: d' =>
      if String.eqb k' k then (k', v) :: d' else (k', v') :: dict_set d' k v
  end.

End Py.
Import Py.

(** ** The structure converter: [casm/scripts/casm_convert.py] *)

Module ASEIntermediary.

(** The names bound at module level in [casm_convert.py]: its imports, its
    one module constant and its functions and class. *)
Definition module_globals : list string :=
  [ "argparse"; "json"; "os"; "sys"; "np"; "casm_capture"; "noindent";
    "Project"; "Selection"; "query"; "get_casm_structure_property";
    "path_help"; "_check_output"; "write_casm_structure"; "ASEIntermediary";
    "make_parser"; "main";
    "__name__"; "__doc__"; "__file__"; "__package__"; "__loader__";
    "__spec__"; "__builtins__"; "__cached__" ].

(** The names of Python 3's [builtins] module. *)
Definition builtin_names : list string :=
  [ "abs"; "all"; "any"; "ascii"; "bin"; "bool"; "breakpoint"; "bytearray";
    "bytes"; "callable"; "chr"; "classmethod"; "compile"; "complex";
    "copyright"; "credits"; "delattr"; "dict"; "dir"; "divmod"; "enumerate";
    "eval"; "exec"; "exit"; "filter"; "float"; "format"; "frozenset";
    "getattr"; "globals"; "hasattr"; "hash"; "help"; "hex"; "id"; "input";
    "int"; "isinstance"; "issubclass"; "iter"; "len"; "license"; "list";
    "locals"; "map"; "max"; "memoryview"; "min"; "next"; "object"; "oct";
    "open"; "ord"; "pow"; "print"; "property"; "quit"; "range"; "repr";
    "reversed"; "round"; "set"; "setattr"; "slice"; "sorted"; "staticmethod";
    "str"; "sum"; "super"; "tuple"; "type"; "vars"; "zip"; "__import__";
    "__build_class__"; "__debug__"; "True"; "False"; "None"; "Ellipsis";
    "NotImplemented";
    "BaseException"; "Exception"; "ArithmeticError"; "AssertionError";
    "AttributeError"; "BlockingIOError"; "BrokenPipeError"; "BufferError";
    "BytesWarning"; "ChildProcessError"; "ConnectionAbortedError";
    "ConnectionError"; "ConnectionRefusedError"; "ConnectionResetError";
    "DeprecationWarning"; "EOFError"; "EnvironmentError"; "FileExistsError";
    "FileNotFoundError"; "FloatingPointError"; "FutureWarning";
    "GeneratorExit"; "IOError"; "ImportError"; "ImportWarning";
    "IndentationError"; "IndexError"; "InterruptedError";
    "IsADirectoryError"; "KeyError"; "KeyboardInterrupt"; "LookupError";
    "MemoryError"; "ModuleNotFoundError"; "NameError"; "NotADirectoryError";
    "NotImplementedError"; "OSError"; "OverflowError";
    "PendingDeprecationWarning"; "PermissionError"; "ProcessLookupError";
    "RecursionError"; "ReferenceError"; "ResourceWarning"; "RuntimeError";
    "RuntimeWarning"; "StopAsyncIteration"; "StopIteration"; "SyntaxError";
    "SyntaxWarning"; "SystemError"; "SystemExit"; "TabError"; "TimeoutError";
    "TypeError"; "UnboundLocalError"; "UnicodeDecodeError";
    "UnicodeEncodeError"; "UnicodeError"; "UnicodeTranslateError";
    "UnicodeWarning"; "UserWarning"; "ValueError"; "Warning";
    "ZeroDivisionError" ].

(** What a name can be bound to, as far as [__init__] is concerned. *)
Inductive obj : Type :=
| OStr (s : string)
| ODict (d : strdict)
| OGlobal (name : string).

(** Loading a name inside the comprehension of [__init__]: the
    comprehension's own locals, then the enclosing function's, then the
    module's globals, then the builtins; [NameError] otherwise. *)
Definition load_name (locals enclosing : list (string * obj)) (x : string)
  : result obj :=
  match List.find (fun b => String.eqb (fst b) x) (locals ++ enclosing) with
  | Some b => Ok (snd b)
  | None =>
      if bool_decide (x ∈ module_globals ++ builtin_names)
      then Ok (OGlobal x)
      else Raise (NameError x)
  end.

(** [container[k]]. *)
Definition subscript (container k : obj) : result string :=
  match container, k with
  | ODict d, OStr s =>
      match dict_get d s with Some v => Ok v | None => Raise (KeyError s) end
  | ODict d, ODict _ => Raise (TypeError "unhashable type: 'dict'")
  | ODict d, OGlobal g => Raise (KeyError g)
  | _, _ => Raise (TypeError "object is not subscriptable")
  end.

(** The instance attributes set by [__init__]. *)
Record t : Type := {
  casm_to_ase_chemical_symbols : strdict;
  ase_to_casm_chemical_symbols : strdict;
}.

(** The dict comprehension of line 63,
    [{casm_to_ase_chemical_symbols[value]:key for key in casm_to_ase_chemical_symbols}]:
    for each [key] of the dict in order, evaluate the key expression
    [casm_to_ase_chemical_symbols[value]] and the value expression [key] in
    the comprehension's scope, and store the pair. *)
Fixpoint inverse_comprehension (enclosing : list (string * obj))
    (keys : list string) (acc : strdict) : result strdict :=
  match keys with
  | [] => Ok acc
  | key :: rest =>
      let locals := [("key", OStr key)] in
      d ← load_name locals enclosing "casm_to_ase_chemical_symbols";
      i ← load_name locals enclosing "value";
      k ← subscript d i;
      v ← load_name locals enclosing "key";
      match v with
      | OStr v => inverse_comprehension enclosing rest (dict_set acc k v)
      | _ => Raise (TypeError "key")
      end
  end.

(** [ASEIntermediary.__init__(self, casm_to_ase_chemical_symbols={})]. *)
Definition __init__ (casm_to_ase_chemical_symbols : strdict) : result t :=
  let enclosing :=
    [("casm_to_ase_chemical_symbols", ODict casm_to_ase_chemical_symbols)] in
  inv ← inverse_comprehension enclosing
         (dict_keys casm_to_ase_chemical_symbols) [];
  Ok {| casm_to_ase_chemical_symbols := casm_to_ase_chemical_symbols;
        ase_to_casm_chemical_symbols := inv |}.

(** *** Conversion to and from [ase.Atoms] *)

(** A CASM structure as [json.load] gives it: a dict with string keys. *)
Abbreviation casm_structure := (gmap string jval).

(** The part of the external [ase] and [numpy] packages the two conversion
    methods call.  [Atoms] is the type of [ase.Atoms] instances; every call
    may raise.  [set_optional_properties] stands for lines 122-144 of
    [make_structure], which go through
    [casm.project.structure.get_casm_structure_property] and
    [ase.constraints]. *)
Class ASE (Atoms : Type) : Type := {
  ase_Atoms : list jval → jval → result Atoms;
  set_scaled_positions : Atoms → jval → result Atoms;
  set_positions : Atoms → jval → result Atoms;
  set_optional_properties : casm_structure → Atoms → result Atoms;
  cell_tolist : Atoms → result jval;
  get_scaled_positions_tolist : Atoms → result jval;
  get_chemical_symbols : Atoms → result (list string);
}.

(** What [make_structure] prints on its error path: a label and the value
    printed after it. *)
Inductive diagnostic : Type :=
| PrintJ (label : string) (v : jval)
| PrintDict (label : string) (d : strdict)
| PrintSymbols (label : string) (l : list jval).

(** The label [casm_structure["atom_type"]:] of the first diagnostic line. *)
Definition atom_type_label : string :=
  "casm_structure[" +:+ String (chr 34) "atom_type" +:+
  String (chr 34) "]:".

(** [d[k]] on a CASM structure. *)
Definition getitem (d : casm_structure) (k : string) : result jval :=
  match d !! k with Some v => Ok v | None => Raise (KeyError k) end.

(** [for x in v]. *)
Definition iterate (v : jval) : result (list jval) :=
  match v with
  | JList l => Ok l
  | JStr s => Ok (map (fun c => JStr (String c EmptyString))
                      (list_ascii_of_string s))
  | JNum _ => Raise (TypeError "'float' object is not iterable")
  end.

(** [d.get(x, x)] on a dict with string keys. *)
Definition get_or_self (d : strdict) (x : jval) : result jval :=
  match x with
  | JStr s => Ok (match dict_get d s with Some v => JStr v | None => x end)
  | JNum _ => Ok x
  | JList _ => Raise (TypeError "unhashable type: 'list'")
  end.

Fixpoint map_result {A B} (f : A → result B) (l : list A) : result (list B) :=
  match l with
  | [] => Ok []
  | x :: l' => y ← f x; ys ← map_result f l'; Ok (y :: ys)
  end.

(** [v.lower()]. *)
Definition str_lower (v : jval) : result string :=
  match v with
  | JStr s => Ok (lower s)
  | _ => Raise (AttributeError "lower")
  end.

Section Conversion.
Context {Atoms : Type} `{!ASE Atoms}.

(** The body of [make_structure] after the lattice has been found. *)
Definition make_structure_with_cell (self : t) (cs : casm_structure)
    (cell : jval) : list diagnostic * result Atoms :=
  match getitem cs "atom_type" with
  | Raise e => ([], Raise e)
  | Ok atom_type =>
  match (xs ← iterate atom_type;
         map_result (get_or_self (casm_to_ase_chemical_symbols self)) xs) with
  | Raise e => ([], Raise e)
  | Ok symbols =>
  match ase_Atoms symbols cell with
  | Raise (KeyError k) =>
      ([ PrintJ atom_type_label atom_type;
         PrintDict "casm_to_ase_chemical_symbols:"
                   (casm_to_ase_chemical_symbols self);
         PrintSymbols "chemical_symbols:" symbols ],
       Raise (PyExceptionFrom
                "Error setting ase chemical symbols. Any CASM atom_type that is not an chemical symbol understood by ase must have a conversion listed in a dict given by --chemical_symbols"
                (KeyError k)))
  | Raise e => ([], Raise e)
  | Ok ase_structure =>
      ([],
       coord_mode ← getitem cs "coord_mode";
       lo ← str_lower coord_mode;
       let casm_coords_are_frac :=
         String.eqb lo "direct" || String.eqb lo "fractional" in
       atom_coords ← getitem cs "atom_coords";
       ase_structure ←
         (if casm_coords_are_frac
          then set_scaled_positions ase_structure atom_coords
          else set_positions ase_structure atom_coords);
       set_optional_properties cs ase_structure)
  end end end.

(** [ASEIntermediary.make_structure(self, casm_structure)]: what is printed
    and the result. *)
Definition make_structure (self : t) (cs : casm_structure)
  : list diagnostic * result Atoms :=
  if bool_decide (is_Some (cs !! "lattice_vectors")) then
    match getitem cs "lattice_vectors" with
    | Ok cell => make_structure_with_cell self cs cell
    | Raise e => ([], Raise e)
    end
  else if bool_decide (is_Some (cs !! "lattice")) then
    match getitem cs "lattice" with
    | Ok cell => make_structure_with_cell self cs cell
    | Raise e => ([], Raise e)
    end
  else
    ([], Raise (PyException
                  "Error: no `lattice_vectors` or `lattice` found in CASM structure")).

(** [ASEIntermediary.make_casm_structure(self, ase_structure)]. *)
Definition make_casm_structure (self : t) (ase_structure : Atoms)
  : result casm_structure :=
  let cs : casm_structure := ∅ in
  cell ← cell_tolist ase_structure;
  let cs := <["lattice_vectors" := cell]> cs in
  let cs := <["coord_mode" := JStr "Fractional"]> cs in
  coords ← get_scaled_positions_tolist ase_structure;
  let cs := <["atom_coords" := coords]> cs in
  symbols ← get_chemical_symbols ase_structure;
  let cs :=
    <["atom_types" :=
        JList (map (fun x =>
                      JStr (default x
                              (dict_get (ase_to_casm_chemical_symbols self) x)))
                   symbols)]> cs in
  Ok cs.

End Conversion.

(** A plain-data stand-in for [ase.Atoms], used to run the conversion on
    concrete structures: the cell, the scaled positions and the chemical
    symbols, with the constructor and the setters storing what they get. *)
Record plain_atoms : Type := {
  pa_symbols : list string;
  pa_cell : jval;
  pa_scaled_positions : jval;
}.

Definition plain_symbol (v : jval) : result string :=
  match v with JStr s => Ok s | _ => Raise (KeyError "symbol") end.

#[export] Instance plain_ASE : ASE plain_atoms := {|
  ase_Atoms symbols cell :=
    syms ← map_result plain_symbol symbols;
    Ok {| pa_symbols := syms; pa_cell := cell;
          pa_scaled_positions := JList [] |};
  set_scaled_positions a p :=
    Ok {| pa_symbols := pa_symbols a; pa_cell := pa_cell a;
          pa_scaled_positions := p |};
  set_positions a p :=
    Ok {| pa_symbols := pa_symbols a; pa_cell := pa_cell a;
          pa_scaled_positions := p |};
  set_optional_properties _ a := Ok a;
  cell_tolist a := Ok (pa_cell a);
  get_scaled_positions_tolist a := Ok (pa_scaled_positions a);
  get_chemical_symbols a := Ok (pa_symbols a);
|}.

(** A two-atom cubic cell. *)
Definition cubic_cell : jval :=
  JList [ JList [JNum 4; JNum 0; JNum 0];
          JList [JNum 0; JNum 4; JNum 0];
          JList [JNum 0; JNum 0; JNum 4] ].

Definition example_atoms : plain_atoms := {|
  pa_symbols := ["Zr"; "O"];
  pa_cell := cubic_cell;
  pa_scaled_positions :=
    JList [ JList [JNum 0; JNum 0; JNum 0];
            JList [JNum (1 # 2); JNum (1 # 2); JNum (1 # 2)] ];
|}.

Definition no_conversion : t :=
  {| casm_to_ase_chemical_symbols := []; ase_to_casm_chemical_symbols := [] |}.

End ASEIntermediary.

(** ** The binding layer: [casm/project/api.py] *)

(** *** The host, the loaded libraries and the process *)

(** A library loaded by [ctypes.CDLL]: where it was loaded from and the
    symbols it exports. *)
Record lib : Type := {
  lib_path : string;
  exports : list string;
}.

(** What the operating system answers to [__API.__init__]: [sys.platform],
    [find_executable], the standard output of [sh.otool] and [sh.ldd] (or the
    exception [sh] raises) on a list of arguments, where [None] is Python's
    [None], and [ctypes.CDLL(path, mode=RTLD_GLOBAL)]. *)
Record host : Type := {
  platform : string;
  find_executable : string → option string;
  otool : list (option string) → result string;
  ldd : list (option string) → result string;
  CDLL : string → result lib;
}.

(** The ctypes types of the signature table. *)
Inductive ctype : Type :=
| c_void_p | c_ulong | c_char_p | c_bool | c_int | POINTER_c_char.

(** The signature of a foreign function: [argtypes] ([None] until set) and
    [restype] ([None] is C's [void]; ctypes' default is [c_int]). *)
Record signature : Type := {
  argtypes : option (list ctype);
  restype : option ctype;
}.

Definition default_signature : signature :=
  {| argtypes := None; restype := Some c_int |}.

(** The instance of the hidden class [API.__API]. *)
Record session : Type := {
  lib_casm : lib;
  lib_ccasm : lib;
  signatures : gmap string signature;
}.

(** An opaque native pointer as ctypes gives it for [c_void_p]: an integer,
    with [0] for C's [NULL] (Python's [None]). *)
Abbreviation ptr := Z.

(** What crosses the boundary of the process, in order: the libraries
    loaded and the native entry points called, with their arguments. *)
Inductive event : Type :=
| Load (path : string)   (* [ctypes.CDLL] called on [path] *)
| Call_STDOUT
| Call_STDERR
| Call_nullstream
| Call_ostringstream_new
| Call_ostringstream_delete (p : ptr)
| Call_ostringstream_size (p : ptr)
| Call_ostringstream_strcpy (p : ptr) (buffer_size : nat)
| Call_primclex_new (path : string) (log debug_log err_log : ptr)
| Call_primclex_delete (p : ptr)
| Call_primclex_refresh (p : ptr)
    (read_settings read_composition read_chem_ref read_configs clear_clex : bool)
| Call_capi (args : string) (primclex : ptr) (root : string)
    (log debug_log err_log : ptr).

(** The state of a process that uses the module: the class member
    [API.__api], what has been printed, the trace of events, and the state of
    the native library, of a type [N] the binding layer knows nothing of. *)
Record process (N : Type) : Type := {
  API__api : option session;
  printed : list string;
  trace : list event;
  native : N;
}.
Arguments API__api {N} _.
Arguments printed {N} _.
Arguments trace {N} _.
Arguments native {N} _.

(** The same process with the native library in state [n]. *)
Definition with_native {N} (n : N) (st : process N) : process N :=
  {| API__api := API__api st; printed := printed st; trace := trace st;
     native := n |}.

(** The process before the first [API()]. *)
Definition fresh_process {N} (n : N) : process N :=
  {| API__api := None; printed := []; trace := []; native := n |}.

(** How a call ends: it returns, it raises a Python exception, or a native
    entry point was used outside its contract and the behaviour of the
    process is undefined from there on. *)
Inductive outcome (A : Type) : Type :=
| Returns (a : A)
| Raises (e : exn)
| Undefined.
Arguments Returns {A} a.
Arguments Raises {A} e.
Arguments Undefined {A}.

(** Computations of the binding layer: state passing over the process. *)
Definition M (N A : Type) : Type := process N → outcome A * process N.

#[export] Instance M_ret {N} : MRet (M N) := fun _ a st => (Returns a, st).
#[export] Instance M_bind {N} : MBind (M N) := fun _ _ f m st =>
  match m st with
  | (Returns a, st') => f a st'
  | (Raises e, st') => (Raises e, st')
  | (Undefined, st') => (Undefined, st')
  end.

Section Effects.
Context {N : Type}.

Definition raise {A} (e : exn) : M N A := fun st => (Raises e, st).

Definition lift {A} (r : result A) : M N A :=
  match r with Ok a => mret a | Raise e => raise e end.

(** [try: body except Exception as e: handler(e)]. *)
Definition try_except {A} (body : M N A) (handler : exn → M N A) : M N A :=
  fun st =>
    match body st with
    | (Raises e, st') => handler e st'
    | r => r
    end.

(** The [print] statement. *)
Definition print (line : string) : M N unit := fun st =>
  (Returns tt,
   {| API__api := API__api st; printed := printed st ++ [line];
      trace := trace st; native := native st |}).

Definition emit (ev : event) : M N unit := fun st =>
  (Returns tt,
   {| API__api := API__api st; printed := printed st;
      trace := trace st ++ [ev]; native := native st |}).

Definition get_api : M N (option session) := fun st =>
  (Returns (API__api st), st).

Definition set_api (s : session) : M N unit := fun st =>
  (Returns tt,
   {| API__api := Some s; printed := printed st;
      trace := trace st; native := native st |}).

(** Calling a native entry point [f]: the call is recorded, then the native
    library runs; [None] is undefined behaviour. *)
Definition call_native {A} (ev : event) (f : N → option (A * N)) : M N A :=
  fun st =>
    let st' := {| API__api := API__api st; printed := printed st;
                  trace := trace st ++ [ev]; native := native st |} in
    match f (native st) with
    | Some (a, n') =>
        (Returns a,
         {| API__api := API__api st; printed := printed st;
            trace := trace st ++ [ev]; native := n' |})
    | None => (Undefined, st')
    end.

(** Two processes that differ at most in what was printed and traced: the
    same class member and the same native state. *)
Definition same_core (st st' : process N) : Prop :=
  API__api st = API__api st' ∧ native st = native st'.

(** A computation whose outcome and effect on the class member and on the
    native state do not depend on what was printed and traced. *)
Definition respects_core {A} (m : M N A) : Prop :=
  ∀ st st', same_core st st' →
    fst (m st) = fst (m st') ∧ same_core (snd (m st)) (snd (m st')).

End Effects.

(** *** External commands and ctypes buffers *)

Fixpoint lines_from (cur : option string) (s : string) : list string :=
  match s with
  | EmptyString => match cur with Some l => [l] | None => [] end
  | String c s' =>
      if Ascii.eqb c (chr 10)
      then default EmptyString cur :: lines_from None s'
      else lines_from (Some (default EmptyString cur +:+ String c EmptyString)) s'
  end.

(** The lines of a text, without their newlines. *)
Definition lines (s : string) : list string := lines_from None s.

Definition newline : string := String (chr 10) EmptyString.

(** [sh.grep(input, pattern)] for a pattern without regular-expression
    operators: the lines of [input] that contain [pattern], each with its
    newline; [grep] exits with status 1 when no line matches, which [sh]
    turns into an exception. *)
Definition grep (input pattern : string) : result string :=
  match List.filter (contains pattern) (lines input) with
  | [] => Raise (ErrorReturnCode "grep" 1)
  | hits => Ok (String.concat EmptyString (map (fun l => l +:+ newline) hits))
  end.

(** [str(x)] for [x] a [str] or [None], as [print] shows it. *)
Definition str_of (x : option string) : string := default "None" x.

(** [os.path.dirname(p)], where [p] may be [None]. *)
Definition dirname_of (p : option string) : result string :=
  match p with
  | Some p => Ok (dirname p)
  | None => Raise (AttributeError "rfind")
  end.

(** [ctypes.create_string_buffer(n)]: [n] zero bytes. *)
Definition create_string_buffer (n : Z) : list byte :=
  List.repeat x00 (Z.to_nat n).

Definition is_nul (b : byte) : bool := Byte.eqb b x00.

(** [buf.value] of a ctypes [char] array: the bytes before the first NUL, or
    the whole array when it holds none. *)
Fixpoint value (buf : list byte) : list byte :=
  match buf with
  | [] => []
  | b :: buf' => if is_nul b then [] else b :: value buf'
  end.

(** *** The native library, as the binding layer sees it *)

(** The eleven entry points of libccasm bound by [__API.__init__], as
    transitions of the native state [N].  [None] is undefined behaviour.
    [casm_ostringstream_strcpy] takes the caller's buffer and gives back its
    contents after the call. *)
Class NativeLib (N : Type) : Type := {
  casm_STDOUT : N → option (ptr * N);
  casm_STDERR : N → option (ptr * N);
  casm_nullstream : N → option (ptr * N);
  casm_ostringstream_new : N → option (ptr * N);
  casm_ostringstream_delete : ptr → N → option (unit * N);
  casm_ostringstream_size : ptr → N → option (Z * N);
  casm_ostringstream_strcpy : ptr → list byte → N → option (list byte * N);
  casm_primclex_new : string → ptr → ptr → ptr → N → option (ptr * N);
  casm_primclex_delete : ptr → N → option (unit * N);
  casm_primclex_refresh :
    ptr → bool → bool → bool → bool → bool → N → option (unit * N);
  casm_capi : string → ptr → string → ptr → ptr → ptr → N → option (Z * N);
}.

(** *** Class [API] *)

Module API.

Module __API.

(** Lines 38-44 of [__API.__init__]: the paths of libcasm and libccasm. *)
Definition library_paths (h : host) : result (string * string) :=
  let casm_path := find_executable h "casm" in
  libcasm_path ←
    (if String.eqb (platform h) "darwin" then
       listing ← otool h [Some "-L"; casm_path];
       hits ← grep listing "libcasm";
       libcasm_path ← index (split hits) 0;
       dir ← dirname_of casm_path;
       Ok (replace libcasm_path "@loader_path" dir)
     else
       listing ← ldd h [casm_path];
       hits ← grep listing "libcasm";
       index (split hits) 2);
  let libccasm_path := replace libcasm_path "libcasm" "libccasm" in
  Ok (libcasm_path, libccasm_path).

(** One assignment of the signature table, lines 62-90. *)
Inductive binding : Type :=
| set_restype (name : string) (r : option ctype)
| set_argtypes (name : string) (a : list ctype).

Definition bindings : list binding :=
  [ set_restype "casm_STDOUT" (Some c_void_p);
    set_restype "casm_STDERR" (Some c_void_p);
    set_restype "casm_nullstream" (Some c_void_p);
    set_restype "casm_ostringstream_new" (Some c_void_p);
    set_argtypes "casm_ostringstream_delete" [c_void_p];
    set_restype "casm_ostringstream_delete" None;
    set_argtypes "casm_ostringstream_size" [c_void_p];
    set_restype "casm_ostringstream_size" (Some c_ulong);
    set_argtypes "casm_ostringstream_strcpy" [c_void_p; POINTER_c_char];
    set_restype "casm_ostringstream_strcpy" (Some POINTER_c_char);
    set_argtypes "casm_primclex_new" [c_char_p; c_void_p; c_void_p; c_void_p];
    set_restype "casm_primclex_new" (Some c_void_p);
    set_argtypes "casm_primclex_delete" [c_void_p];
    set_restype "casm_primclex_delete" None;
    set_argtypes "casm_primclex_refresh"
      [c_void_p; c_bool; c_bool; c_bool; c_bool; c_bool];
    set_restype "casm_primclex_refresh" None;
    set_argtypes "casm_capi"
      [c_char_p; c_void_p; c_char_p; c_void_p; c_void_p; c_void_p];
    set_restype "casm_capi" (Some c_int) ].

Definition binding_name (b : binding) : string :=
  match b with set_restype n _ => n | set_argtypes n _ => n end.

(** [self.lib_ccasm.<name>.<field> = ...]: the attribute access looks the
    symbol up in the library and fails with [AttributeError] when it is not
    exported. *)
Definition bind_one (l : lib) (tbl : gmap string signature) (b : binding)
  : result (gmap string signature) :=
  let name := binding_name b in
  if bool_decide (name ∈ exports l) then
    let sg := default default_signature (tbl !! name) in
    Ok (<[name :=
           match b with
           | set_restype _ r => {| argtypes := argtypes sg; restype := r |}
           | set_argtypes _ a => {| argtypes := Some a; restype := restype sg |}
           end]> tbl)
  else Raise (AttributeError name).

Fixpoint bind_all (l : lib) (tbl : gmap string signature) (bs : list binding)
  : result (gmap string signature) :=
  match bs with
  | [] => Ok tbl
  | b :: bs' => tbl' ← bind_one l tbl b; bind_all l tbl' bs'
  end.

Section Init.
Context {N : Type}.

Definition load (h : host) (path : string) : M N lib :=
  emit (Load path);; lift (CDLL h path).

(** The [try] block, lines 38-47. *)
Definition locate_and_load (h : host) : M N (lib * lib) :=
  '(libcasm_path, libccasm_path) ← lift (library_paths h);
  lib_casm ← load h libcasm_path;
  lib_ccasm ← load h libccasm_path;
  mret (lib_casm, lib_ccasm).

(** The dependency listing the handler prints. *)
Definition dependency_listing (h : host) : result string :=
  let casm_path := find_executable h "casm" in
  if String.eqb (platform h) "darwin"
  then otool h [Some "-L"; casm_path]
  else ldd h [casm_path].

(** The [except] block, lines 49-58.  Both branches of its [if] print the
    same header and then the listing of their platform's tool. *)
Definition diagnose (h : host) (e : exn) : M N (lib * lib) :=
  print "Error loading casm libraries";;
  let casm_path := find_executable h "casm" in
  print ("Find 'casm': " +:+ str_of casm_path);;
  print "Find 'libcasm':";;
  listing ← lift (dependency_listing h);
  print listing;;
  raise e.

(** [API.__API.__init__(self)]. *)
Definition __init__ (h : host) : M N session :=
  '(lib_casm, lib_ccasm) ← try_except (locate_and_load h) (diagnose h);
  tbl ← lift (bind_all lib_ccasm ∅ bindings);
  mret {| lib_casm := lib_casm; lib_ccasm := lib_ccasm; signatures := tbl |}.

End Init.
End __API.

Section Methods.
Context {N : Type} `{!NativeLib N}.

(** [API.__init__(self)]. *)
Definition __init__ (h : host) : M N unit :=
  a ← get_api;
  match a with
  | None => s ← __API.__init__ h; set_api s
  | Some _ => mret tt
  end.

(** The state after [API()] has been called once on each host of [hs], in
    order; a call that raises leaves the state it reached. *)
Fixpoint construct_each (hs : list host) (st : process N) : process N :=
  match hs with
  | [] => st
  | h :: hs' => construct_each hs' (snd (__init__ h st))
  end.

(** [API.__api.lib_ccasm]: [None] has no such attribute. *)
Definition lib_ccasm_of_api : M N lib :=
  a ← get_api;
  match a with
  | Some s => mret (lib_ccasm s)
  | None => raise (AttributeError "lib_ccasm")
  end.

Definition stdout : M N ptr :=
  lib_ccasm_of_api;; call_native Call_STDOUT casm_STDOUT.

Definition stderr : M N ptr :=
  lib_ccasm_of_api;; call_native Call_STDERR casm_STDERR.

Definition nullstream : M N ptr :=
  lib_ccasm_of_api;; call_native Call_nullstream casm_nullstream.

Definition ostringstream_new : M N ptr :=
  lib_ccasm_of_api;; call_native Call_ostringstream_new casm_ostringstream_new.

Definition ostringstream_to_str (p : ptr) : M N (list byte) :=
  lib_ccasm_of_api;;
  size ← call_native (Call_ostringstream_size p) (casm_ostringstream_size p);
  let c_str := create_string_buffer size in
  lib_ccasm_of_api;;
  c_str ← call_native (Call_ostringstream_strcpy p (length c_str))
                      (casm_ostringstream_strcpy p c_str);
  mret (value c_str).

Definition ostringstream_delete (p : ptr) : M N unit :=
  lib_ccasm_of_api;;
  call_native (Call_ostringstream_delete p) (casm_ostringstream_delete p).

Definition primclex_new (path : string) (log debug_log err_log : ptr)
  : M N ptr :=
  lib_ccasm_of_api;;
  call_native (Call_primclex_new path log debug_log err_log)
              (casm_primclex_new path log debug_log err_log).

Definition primclex_refresh (p : ptr)
    (read_settings read_composition read_chem_ref read_configs clear_clex : bool)
  : M N unit :=
  lib_ccasm_of_api;;
  call_native
    (Call_primclex_refresh p read_settings read_composition read_chem_ref
                           read_configs clear_clex)
    (casm_primclex_refresh p read_settings read_composition read_chem_ref
                           read_configs clear_clex).

Definition primclex_delete (p : ptr) : M N unit :=
  lib_ccasm_of_api;;
  call_native (Call_primclex_delete p) (casm_primclex_delete p).

Definition __call__ (args : string) (primclex : ptr) (root : string)
    (log debug_log err_log : ptr) : M N Z :=
  lib_ccasm_of_api;;
  call_native (Call_capi args primclex root log debug_log err_log)
              (casm_capi args primclex root log debug_log err_log).

End Methods.
End API.

(** ** The native library *)

Module Native.

(** The status enumeration of [casm_capi], with the names the docstring of
    [API.__call__] gives. *)
Inductive status : Type :=
| OK
| ERR_INVALID_ARG
| ERR_UNKNOWN
| ERR_NO_PROJ
| ERR_INVALID_INPUT_FILE
| ERR_MISSING_INPUT_FILE
| ERR_EXISTING_FILE
| ERR_MISSING_DEPENDS
| ERR_OTHER_PROJ.

Definition status_code (s : status) : Z :=
  match s with
  | OK => 0
  | ERR_INVALID_ARG => 1
  | ERR_UNKNOWN => 2
  | ERR_NO_PROJ => 3
  | ERR_INVALID_INPUT_FILE => 4
  | ERR_MISSING_INPUT_FILE => 5
  | ERR_EXISTING_FILE => 6
  | ERR_MISSING_DEPENDS => 7
  | ERR_OTHER_PROJ => 8
  end.

(** The parts of a project context that are read from disk. *)
Inductive subsystem : Type :=
| Settings | Composition | ChemRef | Configs.

(** The handles of the three standard sinks, owned by the library. *)
Definition STDOUT_handle : ptr := 1%Z.
Definition STDERR_handle : ptr := 2%Z.
Definition null_handle : ptr := 3%Z.
Definition first_handle : ptr := 4%Z.

Section Model.
(** [Disk] is the state of the file system under the project roots, [Data]
    what one subsystem of a project holds in memory. *)
Context {Disk Data : Type}.

(** Modelled from the spec: the engine state of a project context
    (settings, composition axes, chemical reference, enumerated
    configurations, derived cluster-expansion artifacts). *)
Record project_data : Type := {
  settings : Data;
  composition : Data;
  chem_ref : Data;
  configs : Data;
  clex : list Data;
}.

(** Modelled from the spec: a project context, created from a root path and
    three log sinks. *)
Record project : Type := {
  root : string;
  log : ptr;
  debug_log : ptr;
  err_log : ptr;
  data : project_data;
}.

(** Modelled from the spec: what one dispatched command does: its status,
    the text it sends to the three sinks, the new cached state of the
    project context ([None]: unchanged) and the files it leaves behind. *)
Record command_result : Type := {
  result_status : status;
  to_log : list byte;
  to_debug_log : list byte;
  to_err_log : list byte;
  data_after : option project_data;
  disk_after : Disk;
}.

(** Modelled from the spec: the computation engine behind the entry points,
    of which the specification fixes nothing but the interface: how a
    subsystem is read from the files of a project root, and what a command
    does given its argument string, the project context (if any), the root
    and the files. *)
Class Engine : Type := {
  read_subsystem : subsystem → string → Disk → Data;
  run_command :
    string → option project_data → string → Disk → command_result;
}.

(** Modelled from the spec: the state of the native library: the capturing
    sinks with the bytes written to each since its creation, the project
    contexts, the next handle to hand out, what went to the standard output
    and error streams, and the files. *)
Record state : Type := {
  sinks : gmap Z (list byte);
  contexts : gmap Z project;
  next_handle : Z;
  out_stream : list byte;
  err_stream : list byte;
  disk : Disk;
}.

Definition initial (d : Disk) : state :=
  {| sinks := ∅; contexts := ∅; next_handle := first_handle;
     out_stream := []; err_stream := []; disk := d |}.

Definition with_sinks (s : gmap Z (list byte)) (n : state) : state :=
  {| sinks := s; contexts := contexts n; next_handle := next_handle n;
     out_stream := out_stream n; err_stream := err_stream n; disk := disk n |}.

Definition with_contexts (c : gmap Z project) (n : state) : state :=
  {| sinks := sinks n; contexts := c; next_handle := next_handle n;
     out_stream := out_stream n; err_stream := err_stream n; disk := disk n |}.

Definition with_next_handle (k : Z) (n : state) : state :=
  {| sinks := sinks n; contexts := contexts n; next_handle := k;
     out_stream := out_stream n; err_stream := err_stream n; disk := disk n |}.

Definition with_disk (d : Disk) (n : state) : state :=
  {| sinks := sinks n; contexts := contexts n; next_handle := next_handle n;
     out_stream := out_stream n; err_stream := err_stream n; disk := d |}.

(** Modelled from the spec: an engine output operation writing [bs] to the
    sink [h]: a capturing sink accumulates the bytes, the standard sinks pass
    them to their stream or drop them, anything else is not a sink. *)
Definition write (h : ptr) (bs : list byte) (n : state) : option state :=
  match sinks n !! h with
  | Some c => Some (with_sinks (<[h := c ++ bs]> (sinks n)) n)
  | None =>
      if bool_decide (h = STDOUT_handle) then
        Some {| sinks := sinks n; contexts := contexts n;
                next_handle := next_handle n;
                out_stream := out_stream n ++ bs;
                err_stream := err_stream n; disk := disk n |}
      else if bool_decide (h = STDERR_handle) then
        Some {| sinks := sinks n; contexts := contexts n;
                next_handle := next_handle n;
                out_stream := out_stream n;
                err_stream := err_stream n ++ bs; disk := disk n |}
      else if bool_decide (h = null_handle) then Some n
      else None
  end.

(** The handles [write] accepts. *)
Definition is_sink (h : ptr) (n : state) : bool :=
  bool_decide (is_Some (sinks n !! h)) || bool_decide (h = STDOUT_handle)
  || bool_decide (h = STDERR_handle) || bool_decide (h = null_handle).

(** A sequence of writes to one sink. *)
Fixpoint writes (h : ptr) (ws : list (list byte)) (n : state) : option state :=
  match ws with
  | [] => Some n
  | w :: ws' => n' ← write h w n; writes h ws' n'
  end.

(** Modelled from the spec: the copy of the readout: the bytes of the sink go
    to the front of the caller's storage, as many as it holds. *)
Definition copy_into (buffer content : list byte) : list byte :=
  take (length buffer) content ++ drop (length content) buffer.

Context `{!Engine}.

Definition load_project (path : string) (d : Disk) : project_data :=
  {| settings := read_subsystem Settings path d;
     composition := read_subsystem Composition path d;
     chem_ref := read_subsystem ChemRef path d;
     configs := read_subsystem Configs path d;
     clex := [] |}.

(** Modelled from the spec: the refresh of a project context: each flag is
    looked at on its own; a set flag reloads its subsystem from the files
    (the last one clears the derived artifacts), an unset flag leaves its
    subsystem as it is. *)
Definition refresh (p : project) (d : Disk)
    (read_settings read_composition read_chem_ref read_configs clear_clex : bool)
  : project :=
  let old := data p in
  {| root := root p; log := log p; debug_log := debug_log p;
     err_log := err_log p;
     data :=
       {| settings := if read_settings
                      then read_subsystem Settings (root p) d
                      else settings old;
          composition := if read_composition
                         then read_subsystem Composition (root p) d
                         else composition old;
          chem_ref := if read_chem_ref
                      then read_subsystem ChemRef (root p) d
                      else chem_ref old;
          configs := if read_configs
                     then read_subsystem Configs (root p) d
                     else configs old;
          clex := if clear_clex then [] else clex old |} |}.

(** The project context a command runs against: none for the null handle,
    the context of a live handle; any other handle is outside the contract. *)
Definition context_of (primclex : ptr) (n : state) : option (option project) :=
  if bool_decide (primclex = 0%Z) then Some None
  else p ← contexts n !! primclex; Some (Some p).

(** Modelled from the spec: command dispatch: the engine runs the command,
    its text goes to the three sinks the caller supplied, the project
    context keeps its handle and takes the new cached state, and the status
    code of the enumeration is returned. *)
Definition dispatch (args : string) (primclex : ptr) (root_path : string)
    (lg dbg err : ptr) (n : state) : option (Z * state) :=
  ctx ← context_of primclex n;
  let r := run_command args (data <$> ctx) root_path (disk n) in
  n ← write lg (to_log r) n;
  n ← write dbg (to_debug_log r) n;
  n ← write err (to_err_log r) n;
  let n := with_disk (disk_after r) n in
  let n :=
    match ctx, data_after r with
    | Some p, Some d =>
        with_contexts
          (<[primclex := {| root := root p; log := log p;
                            debug_log := debug_log p;
                            err_log := err_log p; data := d |}]>
             (contexts n)) n
    | _, _ => n
    end in
  Some (status_code (result_status r), n).

(** Modelled from the spec: the entry points of libccasm over [state].
    Handles are handed out in increasing order and never reused; an entry
    point given a handle that is not live has no defined behaviour. *)
#[export] Instance libccasm : NativeLib state := {|
  casm_STDOUT n := Some (STDOUT_handle, n);
  casm_STDERR n := Some (STDERR_handle, n);
  casm_nullstream n := Some (null_handle, n);
  casm_ostringstream_new n :=
    let h := next_handle n in
    Some (h, with_next_handle (h + 1)%Z (with_sinks (<[h := []]> (sinks n)) n));
  casm_ostringstream_delete h n :=
    _ ← sinks n !! h;
    Some (tt, with_sinks (delete h (sinks n)) n);
  casm_ostringstream_size h n :=
    c ← sinks n !! h;
    Some (Z.of_nat (length c), n);
  casm_ostringstream_strcpy h buffer n :=
    c ← sinks n !! h;
    Some (copy_into buffer c, n);
  casm_primclex_new path lg dbg err n :=
    let h := next_handle n in
    let p := {| root := path; log := lg; debug_log := dbg; err_log := err;
                data := load_project path (disk n) |} in
    Some (h, with_next_handle (h + 1)%Z
               (with_contexts (<[h := p]> (contexts n)) n));
  casm_primclex_delete h n :=
    _ ← contexts n !! h;
    Some (tt, with_contexts (delete h (contexts n)) n);
  casm_primclex_refresh h rs rc rr rf cc n :=
    p ← contexts n !! h;
    Some (tt, with_contexts
                (<[h := refresh p (disk n) rs rc rr rf cc]> (contexts n)) n);
  casm_capi := dispatch;
|}.

End Model.
Arguments project_data : clear implicits.
Arguments project : clear implicits.
Arguments command_result : clear implicits.
Arguments Engine : clear implicits.
Arguments state : clear implicits.

End Native.

(** ** Concrete hosts and a concrete engine *)

Module Examples.
Import Native.

Definition tab : string := String (chr 9) EmptyString.

(** The entry points [__API.__init__] binds. *)
Definition libccasm_symbols : list string :=
  [ "casm_STDOUT"; "casm_STDERR"; "casm_nullstream"; "casm_ostringstream_new";
    "casm_ostringstream_delete"; "casm_ostringstream_size";
    "casm_ostringstream_strcpy"; "casm_primclex_new"; "casm_primclex_delete";
    "casm_primclex_refresh"; "casm_capi" ].

(** A dynamic loader that finds the two libraries under [dir] and nothing
    else. *)
Definition loader (installed : list string) (path : string) : result lib :=
  if bool_decide (path ∈ installed) then
    Ok {| lib_path := path;
          exports := if contains "libccasm" path then libccasm_symbols else [] |}
  else Raise (OSError path).

(** What [ldd /usr/local/bin/casm] prints on a Linux installation. *)
Definition ldd_listing : string :=
  tab +:+ "linux-vdso.so.1 (0x00007ffd4a5f2000)" +:+ newline +:+
  tab +:+ "libcasm.so.0 => /usr/local/lib/libcasm.so.0 (0x00007f3c1e2a0000)"
      +:+ newline +:+
  tab +:+ "libboost_system.so.1.65.1 => /usr/lib/x86_64-linux-gnu/libboost_system.so.1.65.1 (0x00007f3c1e09b000)"
      +:+ newline +:+
  tab +:+ "libc.so.6 => /lib/x86_64-linux-gnu/libc.so.6 (0x00007f3c1dcaa000)"
      +:+ newline.

Definition linux_host : host := {|
  platform := "linux2";
  find_executable name :=
    if String.eqb name "casm" then Some "/usr/local/bin/casm" else None;
  otool _ := Raise (ExternalError "CommandNotFound: otool");
  ldd args :=
    if bool_decide (args = [Some "/usr/local/bin/casm"])
    then Ok ldd_listing else Raise (ErrorReturnCode "ldd" 1);
  CDLL := loader ["/usr/local/lib/libcasm.so.0"; "/usr/local/lib/libccasm.so.0"];
|}.

(** What [otool -L /usr/local/bin/casm] prints on a macOS installation. *)
Definition otool_listing : string :=
  "/usr/local/bin/casm:" +:+ newline +:+
  tab +:+ "@loader_path/../lib/libcasm.0.dylib (compatibility version 1.0.0, current version 1.0.0)"
      +:+ newline +:+
  tab +:+ "/usr/lib/libc++.1.dylib (compatibility version 1.0.0, current version 400.9.0)"
      +:+ newline.

Definition darwin_host : host := {|
  platform := "darwin";
  find_executable name :=
    if String.eqb name "casm" then Some "/usr/local/bin/casm" else None;
  otool args :=
    if bool_decide (args = [Some "-L"; Some "/usr/local/bin/casm"])
    then Ok otool_listing else Raise (ErrorReturnCode "otool" 1);
  ldd _ := Raise (ExternalError "CommandNotFound: ldd");
  CDLL := loader ["/usr/local/bin/../lib/libcasm.0.dylib";
                  "/usr/local/bin/../lib/libccasm.0.dylib"];
|}.

(** A Linux host with no [casm] on the search path: [find_executable] gives
    [None], and [ldd] without a file to inspect exits with status 1. *)
Definition host_without_casm : host := {|
  platform := "linux2";
  find_executable _ := None;
  otool _ := Raise (ExternalError "CommandNotFound: otool");
  ldd _ := Raise (ErrorReturnCode "ldd" 1);
  CDLL path := Raise (OSError path);
|}.

(** A Linux host whose [casm] does not depend on libcasm. *)
Definition static_listing : string :=
  tab +:+ "linux-vdso.so.1 (0x00007ffd4a5f2000)" +:+ newline +:+
  tab +:+ "libc.so.6 => /lib/x86_64-linux-gnu/libc.so.6 (0x00007f3c1dcaa000)"
      +:+ newline.

Definition host_without_libcasm : host := {|
  platform := "linux2";
  find_executable name :=
    if String.eqb name "casm" then Some "/usr/local/bin/casm" else None;
  otool _ := Raise (ExternalError "CommandNotFound: otool");
  ldd _ := Ok static_listing;
  CDLL path := Raise (OSError path);
|}.

(** A Linux host where libcasm is installed and libccasm is not. *)
Definition host_without_libccasm : host := {|
  platform := "linux2";
  find_executable name :=
    if String.eqb name "casm" then Some "/usr/local/bin/casm" else None;
  otool _ := Raise (ExternalError "CommandNotFound: otool");
  ldd _ := Ok ldd_listing;
  CDLL := loader ["/usr/local/lib/libcasm.so.0"];
|}.

(** A small engine to run the model on: the files are a version number, a
    subsystem holds the version it was read at, and a command echoes its
    argument string to the log; without a project context it reports
    [ERR_NO_PROJ] and says so on the error log. *)
#[export] Instance echo_engine : @Engine nat nat := {|
  read_subsystem _ _ d := d;
  run_command args ctx _ d :=
    {| result_status := match ctx with Some _ => OK | None => ERR_NO_PROJ end;
       to_log := list_byte_of_string args;
       to_debug_log := [];
       to_err_log := match ctx with
                     | Some _ => []
                     | None => list_byte_of_string "no project"
                     end;
       data_after := None;
       disk_after := d |};
|}.

Abbreviation echo_state := (Native.state nat nat).

(** The process at start-up, with the files at version 0. *)
Definition start : process echo_state := fresh_process (Native.initial 0%nat).

(** The process after the first [API()] on the Linux host. *)
Definition loaded : process echo_state := snd (API.__init__ linux_host start).

(** Running [m] and keeping the state. *)
Definition after {A} (m : M echo_state A) (st : process echo_state)
  : process echo_state := snd (m st).

(** The loaded process after the creation of a capturing sink (handle 4)
    and then of a project context on [/proj] (handle 5) that logs to the
    standard sinks. *)
Definition with_sink : process echo_state := after API.ostringstream_new loaded.

Definition with_project : process echo_state :=
  after (API.primclex_new "/proj" STDOUT_handle STDOUT_handle STDERR_handle)
        with_sink.

(** The process [st] after the engine has written [ws] to the sink [h]. *)
Definition written (h : ptr) (ws : list (list byte)) (st : process echo_state)
  : option (process echo_state) :=
  n' ← Native.writes h ws (native st); Some (with_native n' st).

End Examples.

(** * Part II: theorems *)

(** Unfolding the monad of the binding layer. *)
Ltac run := unfold mbind, M_bind, mret, M_ret, raise, lift, emit, print,
  get_api, set_api, try_except in *; cbn [fst snd] in *.

(** ** The converter *)

Import ASEIntermediary.

Section ConverterFacts.

(** Inside the comprehension the name [value] is bound nowhere. *)
Lemma load_value_unbound (key : string) (d : strdict) :
  load_name [("key", OStr key)]
            [("casm_to_ase_chemical_symbols", ODict d)] "value"
  = Raise (NameError "value").
Proof. reflexivity. Qed.

Lemma inverse_comprehension_cons (d : strdict) key rest acc :
  inverse_comprehension [("casm_to_ase_chemical_symbols", ODict d)]
                        (key :: rest) acc
  = Raise (NameError "value").
Proof.
  cbn [inverse_comprehension].
  rewrite load_value_unbound. reflexivity.
Qed.

(** C9: constructing [ASEIntermediary] with a non-empty
    [casm_to_ase_chemical_symbols] raises [NameError] for the name [value];
    with the empty dict it returns an instance whose two dicts are empty; so
    construction succeeds only for the empty dict. *)
Theorem init_raises_NameError_unless_empty (d : strdict) :
  (d ≠ [] → __init__ d = Raise (NameError "value")) ∧
  (d = [] →
   __init__ d = Ok {| casm_to_ase_chemical_symbols := [];
                      ase_to_casm_chemical_symbols := [] |}) ∧
  (is_Ok (__init__ d) = true → d = []).
Proof.
  destruct d as [|[k v] d].
  - split; [congruence | split; [reflexivity | reflexivity]].
  - assert (E : __init__ ((k, v) :: d) = Raise (NameError "value")).
    { unfold __init__. cbn [dict_keys map fst].
      rewrite inverse_comprehension_cons. reflexivity. }
    rewrite E. split; [reflexivity | split; [discriminate | discriminate]].
Qed.

Lemma init_raises_NameError_unless_empty_witness :
  [("Va", "X")] ≠ [] ∧
  __init__ [("Va", "X")] = Raise (NameError "value").
Proof.
  split; [discriminate |].
  apply (init_raises_NameError_unless_empty [("Va", "X")]). discriminate.
Defined.

Context {Atoms : Type} `{!ASE Atoms}.

(** [make_structure] on a dict that has a lattice and no ["atom_type"]. *)
Lemma make_structure_without_atom_type (self : t) (cs : casm_structure) :
  is_Some (cs !! "lattice_vectors") →
  cs !! "atom_type" = None →
  make_structure self cs = ([], Raise (KeyError "atom_type")).
Proof.
  intros [cell Hc] Hn. unfold make_structure.
  rewrite bool_decide_eq_true_2 by eauto.
  unfold getitem at 1. rewrite Hc.
  unfold make_structure_with_cell, getitem. rewrite Hn. reflexivity.
Qed.

(** C10: the dict [make_casm_structure] returns holds the atom types under
    ["atom_types"] and has no key ["atom_type"], so [make_structure] applied
    to it raises [KeyError] for ["atom_type"], whatever the structure. *)
Theorem make_structure_of_make_casm_structure_KeyError
    (self : t) (ase_structure : Atoms) (cs : casm_structure) :
  make_casm_structure self ase_structure = Ok cs →
  (∃ symbols,
     get_chemical_symbols ase_structure = Ok symbols ∧
     cs !! "atom_types" =
       Some (JList (map (fun x =>
                           JStr (default x
                                   (dict_get (ase_to_casm_chemical_symbols self) x)))
                        symbols))) ∧
  cs !! "atom_type" = None ∧
  ∀ self', make_structure self' cs = ([], Raise (KeyError "atom_type")).
Proof.
  unfold make_casm_structure. intros H.
  destruct (cell_tolist ase_structure) as [cell|] eqn:E1; [|discriminate].
  destruct (get_scaled_positions_tolist ase_structure) as [coords|] eqn:E2;
    [|discriminate].
  destruct (get_chemical_symbols ase_structure) as [symbols|] eqn:E3;
    [|discriminate].
  cbn in H. injection H as <-.
  assert (Hn : ∀ v1 v2 v3 v4,
             (<["atom_types" := v1]> (<["atom_coords" := v2]>
               (<["coord_mode" := v3]> (<["lattice_vectors" := v4]>
                 (∅ : casm_structure))))) !! "atom_type" = None).
  { intros. by rewrite !lookup_insert_ne, lookup_empty. }
  split; [|split].
  - exists symbols. split; [reflexivity|]. by rewrite lookup_insert_eq.
  - apply Hn.
  - intros self'. apply make_structure_without_atom_type; [|apply Hn].
    rewrite !lookup_insert_ne by done. rewrite lookup_insert_eq. eauto.
Qed.

End ConverterFacts.

Lemma make_structure_of_make_casm_structure_KeyError_witness :
  make_casm_structure no_conversion example_atoms
  = Ok (<["atom_types" := JList [JStr "Zr"; JStr "O"]]>
         (<["atom_coords" := pa_scaled_positions example_atoms]>
           (<["coord_mode" := JStr "Fractional"]>
             (<["lattice_vectors" := cubic_cell]> ∅)))) ∧
  make_structure (Atoms := plain_atoms) no_conversion
    (<["atom_types" := JList [JStr "Zr"; JStr "O"]]>
         (<["atom_coords" := pa_scaled_positions example_atoms]>
           (<["coord_mode" := JStr "Fractional"]>
             (<["lattice_vectors" := cubic_cell]> ∅))))
  = ([], Raise (KeyError "atom_type")).
Proof.
  split; [reflexivity |].
  apply (make_structure_of_make_casm_structure_KeyError
           no_conversion example_atoms).
  reflexivity.
Defined.

(** ** The library session *)

Section SessionFacts.
Context {N : Type}.
Implicit Types (st : process N) (h : host).
#[local] Arguments API.__API.bind_all : simpl never.


Lemma diagnose_raises h e st :
  ∃ e' st', API.__API.diagnose (N := N) h e st = (Raises e', st').
Proof.
  unfold API.__API.diagnose. run.
  destruct (API.__API.dependency_listing h); cbn; eauto.
Qed.

(** A session is constructed only when the paths were found, both libraries
    loaded and every entry point bound; the two loads are the only events. *)
Lemma session_init_returns h st s st' :
  API.__API.__init__ h st = (Returns s, st') →
  ∃ p1 p2 l1 l2 tbl,
    API.__API.library_paths h = Ok (p1, p2) ∧
    CDLL h p1 = Ok l1 ∧ CDLL h p2 = Ok l2 ∧
    API.__API.bind_all l2 ∅ API.__API.bindings = Ok tbl ∧
    s = {| lib_casm := l1; lib_ccasm := l2; signatures := tbl |} ∧
    st' = {| API__api := API__api st; printed := printed st;
             trace := trace st ++ [Load p1; Load p2]; native := native st |}.
Proof.
  unfold API.__API.__init__, API.__API.locate_and_load, API.__API.load.
  intros H. run.
  destruct (API.__API.library_paths h) as [[p1 p2]|e] eqn:Ep; cbn in H.
  2:{ destruct (diagnose_raises h e st) as (e' & st2 & E).
      rewrite E in H. cbn in H. discriminate H. }
  destruct (CDLL h p1) as [l1|e] eqn:E1; cbn in H.
  2:{ match type of H with context [API.__API.diagnose h e ?s] =>
        destruct (diagnose_raises h e s) as (e' & st2 & E) end.
      rewrite E in H. cbn in H. discriminate H. }
  destruct (CDLL h p2) as [l2|e] eqn:E2; cbn in H.
  2:{ match type of H with context [API.__API.diagnose h e ?s] =>
        destruct (diagnose_raises h e s) as (e' & st2 & E) end.
      rewrite E in H. cbn in H. discriminate H. }
  destruct (API.__API.bind_all l2 ∅ API.__API.bindings) as [tbl|e] eqn:Eb;
    cbn in H; [|discriminate H].
  injection H as <- <-.
  exists p1, p2, l1, l2, tbl. rewrite <- app_assoc. auto 10.
Qed.

(** Once the class member is set, [API()] neither loads nor binds: the
    process is left exactly as it was. *)
Lemma init_cached h st s :
  API__api st = Some s → API.__init__ h st = (Returns tt, st).
Proof. intros E. unfold API.__init__. run. rewrite E. reflexivity. Qed.

Lemma construct_each_cached hs st s :
  API__api st = Some s → API.construct_each hs st = st.
Proof.
  intros E. induction hs as [|h hs IH]; [reflexivity|].
  cbn [API.construct_each]. rewrite (init_cached h st s E). exact IH.
Qed.

(** C1: the first [API()] of a process, when it returns, has loaded libcasm
    and libccasm (two loads, in this order, and nothing else) and has stored
    the session in the class member; every later [API()], from any caller
    and on any host, returns with the process unchanged: the same session,
    no load, no binding. *)
Theorem API_init_loads_once h (hs : list host) st st1 :
  API__api st = None →
  API.__init__ h st = (Returns tt, st1) →
  ∃ s p1 p2,
    API.__API.library_paths h = Ok (p1, p2) ∧
    CDLL h p1 = Ok (lib_casm s) ∧ CDLL h p2 = Ok (lib_ccasm s) ∧
    API__api st1 = Some s ∧
    trace st1 = trace st ++ [Load p1; Load p2] ∧
    (∀ h', API.__init__ h' st1 = (Returns tt, st1)) ∧
    API.construct_each hs st1 = st1.
Proof.
  intros Hnone H. unfold API.__init__ in H. run. rewrite Hnone in H.
  destruct (API.__API.__init__ h st) as [[s| |] st0] eqn:E;
    cbn in H; try discriminate H.
  injection H as <-.
  apply session_init_returns in E
    as (p1 & p2 & l1 & l2 & tbl & Ep & E1 & E2 & _ & -> & ->).
  exists {| lib_casm := l1; lib_ccasm := l2; signatures := tbl |}, p1, p2.
  cbn. split_and!; try assumption; try reflexivity.
  by eapply construct_each_cached.
Qed.

(** *** The locator *)

(** Each of the three failures of the specification makes the [try] block
    raise: no executable (when the introspection tool fails without a file
    to inspect), no dependency that names libcasm, and a library that cannot
    be loaded. *)
Lemma library_paths_no_executable h e :
  find_executable h "casm" = None →
  API.__API.dependency_listing h = Raise e →
  API.__API.library_paths h = Raise e.
Proof.
  unfold API.__API.dependency_listing, API.__API.library_paths.
  intros -> H. destruct (String.eqb (platform h) "darwin"); by rewrite H.
Qed.

Lemma library_paths_no_match h listing :
  API.__API.dependency_listing h = Ok listing →
  grep listing "libcasm" = Raise (ErrorReturnCode "grep" 1) →
  API.__API.library_paths h = Raise (ErrorReturnCode "grep" 1).
Proof.
  unfold API.__API.dependency_listing, API.__API.library_paths.
  intros H G. destruct (String.eqb (platform h) "darwin");
    rewrite H; cbn; by rewrite G.
Qed.

Lemma locate_and_load_unloadable h st p1 p2 e :
  API.__API.library_paths h = Ok (p1, p2) →
  CDLL h p1 = Raise e →
  fst (API.__API.locate_and_load h st) = Raises e.
Proof.
  intros Ep E1. unfold API.__API.locate_and_load, API.__API.load. run.
  rewrite Ep. cbn. by rewrite E1.
Qed.

(** C5, as the code has it: when the [try] block of [__API.__init__] raises
    [e] (no executable, no matching dependency, a library that cannot be
    loaded), the handler prints its diagnostics: the line
    [Error loading casm libraries], the executable path found, the header
    [Find 'libcasm':] and the raw dependency listing; then the exception [e]
    itself is raised again.  When the introspection for the listing raises,
    its exception is the one that propagates.  No session is stored. *)
Theorem load_failure_prints_and_reraises h st e st0 :
  API.__API.locate_and_load h st = (Raises e, st0) →
  ∃ st1,
    API.__API.__init__ h st =
      (Raises (match API.__API.dependency_listing h with
               | Ok _ => e
               | Raise e' => e'
               end), st1) ∧
    printed st1 =
      printed st ++
      [ "Error loading casm libraries";
        "Find 'casm': " +:+ str_of (find_executable h "casm");
        "Find 'libcasm':" ] ++
      match API.__API.dependency_listing h with
      | Ok listing => [listing]
      | Raise _ => []
      end ∧
    API__api st1 = API__api st.
Proof.
  intros H.
  assert (Hp : printed st0 = printed st ∧ API__api st0 = API__api st).
  { revert H. unfold API.__API.locate_and_load, API.__API.load. run.
    destruct (API.__API.library_paths h) as [[p1 p2]|]; cbn.
    - destruct (CDLL h p1); cbn.
      + destruct (CDLL h p2); cbn; intros [= <- <-] || intros [=]; auto.
      + intros [= <- <-]; auto.
    - intros [= <- <-]; auto. }
  destruct Hp as [Hp Ha].
  unfold API.__API.__init__. run. rewrite H.
  unfold API.__API.diagnose. run.
  destruct (API.__API.dependency_listing h) as [listing|e']; cbn;
    eexists; (split; [reflexivity|]); cbn; rewrite Hp, Ha;
    rewrite <- ?app_assoc; auto.
Qed.

(** C6: when [casm] is found and the two paths are computed, the path of
    libccasm is the path of libcasm with every ['libcasm'] replaced by
    ['libccasm']; on darwin the path of libcasm is the first field of the
    [otool -L] lines naming libcasm, with ['@loader_path'] replaced by the
    directory of the executable; elsewhere it is the third field of the
    [ldd] lines naming libcasm, the resolved path. *)
Theorem library_paths_derivation h casm_path libcasm_path libccasm_path :
  find_executable h "casm" = Some casm_path →
  API.__API.library_paths h = Ok (libcasm_path, libccasm_path) →
  libccasm_path = replace libcasm_path "libcasm" "libccasm" ∧
  (platform h = "darwin" →
   ∃ listing hits entry,
     otool h [Some "-L"; Some casm_path] = Ok listing ∧
     grep listing "libcasm" = Ok hits ∧
     index (split hits) 0 = Ok entry ∧
     libcasm_path = replace entry "@loader_path" (dirname casm_path)) ∧
  (platform h ≠ "darwin" →
   ∃ listing hits,
     ldd h [Some casm_path] = Ok listing ∧
     grep listing "libcasm" = Ok hits ∧
     index (split hits) 2 = Ok libcasm_path).
Proof.
  unfold API.__API.library_paths. intros -> H.
  destruct (String.eqb_spec (platform h) "darwin") as [Ed|Ed].
  - destruct (otool h _) as [listing|] eqn:E1; [|discriminate H]. cbn in H.
    destruct (grep listing "libcasm") as [hits|] eqn:E2; [|discriminate H].
    cbn in H.
    destruct (index (split hits) 0) as [entry|] eqn:E3; [|discriminate H].
    cbn in H. injection H as <- <-.
    split_and!; [reflexivity | | done].
    intros _. exists listing, hits, entry. auto.
  - destruct (ldd h _) as [listing|] eqn:E1; [|discriminate H]. cbn in H.
    destruct (grep listing "libcasm") as [hits|] eqn:E2; [|discriminate H].
    cbn in H.
    destruct (index (split hits) 2) as [entry|] eqn:E3; [|discriminate H].
    cbn in H. injection H as <- <-.
    split_and!; [reflexivity | done |].
    intros _. exists listing, hits. auto.
Qed.

End SessionFacts.

Import Examples.

Lemma API_init_loads_once_witness :
  API.__init__ linux_host start = (Returns tt, loaded) ∧
  trace loaded = [ Load "/usr/local/lib/libcasm.so.0";
                   Load "/usr/local/lib/libccasm.so.0" ] ∧
  API.construct_each [linux_host; darwin_host; host_without_casm] loaded
  = loaded.
Proof.
  assert (E : API.__init__ linux_host start = (Returns tt, loaded))
    by (vm_compute; reflexivity).
  destruct (API_init_loads_once linux_host
              [linux_host; darwin_host; host_without_casm] start loaded
              eq_refl E)
    as (s & p1 & p2 & Ep & _ & _ & _ & Ht & _ & Hc).
  vm_compute in Ep. injection Ep as <- <-.
  split; [exact E | split; [exact Ht | exact Hc]].
Defined.

(** The two hosts of the examples: the paths the locator computes. *)
Example library_paths_linux :
  API.__API.library_paths linux_host
  = Ok ("/usr/local/lib/libcasm.so.0", "/usr/local/lib/libccasm.so.0").
Proof. vm_compute. reflexivity. Qed.

Example library_paths_darwin :
  API.__API.library_paths darwin_host
  = Ok ("/usr/local/bin/../lib/libcasm.0.dylib",
        "/usr/local/bin/../lib/libccasm.0.dylib").
Proof. vm_compute. reflexivity. Qed.

Lemma library_paths_derivation_witness :
  "/usr/local/lib/libccasm.so.0"
  = replace "/usr/local/lib/libcasm.so.0" "libcasm" "libccasm".
Proof.
  apply (library_paths_derivation linux_host "/usr/local/bin/casm"
           "/usr/local/lib/libcasm.so.0" "/usr/local/lib/libccasm.so.0");
    vm_compute; reflexivity.
Defined.

(** C5 as the specification words it fails on the code: with no [casm] on
    the search path the constructor raises the exception of the failed
    [ldd] call, not [ExecutableNotFoundError], and with no dependency naming
    libcasm it raises the exception of the failed [grep], not
    [LibraryNotFoundError]; in both cases the diagnostics are printed. *)
Lemma locator_raises_no_dedicated_error :
  find_executable host_without_casm "casm" = None ∧
  fst (API.__init__ host_without_casm start)
    = Raises (ErrorReturnCode "ldd" 1) ∧
  fst (API.__init__ host_without_casm start) ≠ Raises ExecutableNotFoundError ∧
  printed (snd (API.__init__ host_without_casm start))
    = [ "Error loading casm libraries"; "Find 'casm': None";
        "Find 'libcasm':" ] ∧
  grep static_listing "libcasm" = Raise (ErrorReturnCode "grep" 1) ∧
  fst (API.__init__ host_without_libcasm start)
    = Raises (ErrorReturnCode "grep" 1) ∧
  fst (API.__init__ host_without_libcasm start)
    ≠ Raises (LibraryNotFoundError "/usr/local/bin/casm" static_listing) ∧
  printed (snd (API.__init__ host_without_libcasm start))
    = [ "Error loading casm libraries"; "Find 'casm': /usr/local/bin/casm";
        "Find 'libcasm':"; static_listing ].
Proof. vm_compute. split_and!; (reflexivity || discriminate). Qed.

Lemma load_failure_prints_and_reraises_witness :
  ∃ st1,
    API.__API.__init__ host_without_libccasm start
      = (Raises (OSError "/usr/local/lib/libccasm.so.0"), st1) ∧
    printed st1
      = [ "Error loading casm libraries"; "Find 'casm': /usr/local/bin/casm";
          "Find 'libcasm':"; ldd_listing ].
Proof.
  destruct (load_failure_prints_and_reraises host_without_libccasm start
              (OSError "/usr/local/lib/libccasm.so.0")
              (snd (API.__API.locate_and_load host_without_libccasm start)))
    as (st1 & E & Hp & _).
  - vm_compute. reflexivity.
  - exists st1. split; [exact E | exact Hp].
Defined.


(** ** The methods, over any native library *)

Section MethodFacts.
Context {N : Type} `{!NativeLib N}.
Implicit Types (st : process N) (p : ptr).

Lemma lib_ccasm_of_api_loaded st s :
  API__api st = Some s →
  API.lib_ccasm_of_api st = (Returns (lib_ccasm s), st).
Proof. intros E. unfold API.lib_ccasm_of_api. run. by rewrite E. Qed.

(** With the session loaded, a method that makes one native call is that
    call. *)
Lemma method_is_call {A} (ev : event) (f : N → option (A * N)) st s :
  API__api st = Some s →
  (API.lib_ccasm_of_api;; call_native ev f) st = call_native ev f st.
Proof.
  intros E. unfold mbind, M_bind.
  by rewrite (lib_ccasm_of_api_loaded st s E).
Qed.

Lemma call_native_trace {A} (ev : event) (f : N → option (A * N)) st :
  trace (snd (call_native ev f st)) = trace st ++ [ev].
Proof.
  unfold call_native. destruct (f (native st)) as [[a n']|]; reflexivity.
Qed.

(** C3, as the code has it: [ostringstream_delete] and [primclex_delete]
    keep no record of the handles released; whatever happened before, a
    second release of the same handle included, the call goes to the native
    release entry point with the handle it was given, and its outcome is the
    native library's. *)
Theorem release_is_passed_through st p :
  is_Some (API__api st) →
  API.ostringstream_delete p st
    = call_native (Call_ostringstream_delete p)
                  (casm_ostringstream_delete p) st ∧
  API.primclex_delete p st
    = call_native (Call_primclex_delete p) (casm_primclex_delete p) st ∧
  trace (snd (API.ostringstream_delete p st))
    = trace st ++ [Call_ostringstream_delete p] ∧
  trace (snd (API.primclex_delete p st))
    = trace st ++ [Call_primclex_delete p].
Proof.
  intros [s E]. unfold API.ostringstream_delete, API.primclex_delete.
  rewrite !(method_is_call _ _ st s E), !call_native_trace. auto.
Qed.

(** What a method returns and does to the native state does not depend on
    the trace or on what was printed. *)
Lemma respects_core_ret {A} (a : A) : respects_core (N := N) (mret a).
Proof. intros st st' H. run. auto. Qed.

Lemma respects_core_bind {A B} (m : M N A) (f : A → M N B) :
  respects_core m → (∀ a, respects_core (f a)) → respects_core (m ≫= f).
Proof.
  intros Hm Hf st st' H. destruct (Hm st st' H) as [E1 E2].
  unfold mbind, M_bind.
  destruct (m st) as [[a| |] s1], (m st') as [[a'| |] s1'];
    cbn in E1, E2; try discriminate E1.
  - injection E1 as <-. by apply Hf.
  - injection E1 as <-. cbn. auto.
  - cbn. auto.
Qed.

Lemma respects_core_call {A} (ev : event) (f : N → option (A * N)) :
  respects_core (call_native ev f).
Proof.
  intros st st' [Ha Hn]. unfold call_native. rewrite Hn.
  destruct (f (native st')) as [[a n']|]; cbn; unfold same_core; cbn; auto.
Qed.

Lemma respects_core_lib : respects_core (N := N) API.lib_ccasm_of_api.
Proof.
  intros st st' [Ha Hn]. unfold API.lib_ccasm_of_api. run. rewrite Ha.
  destruct (API__api st') eqn:E; cbn; unfold same_core; rewrite Ha; auto.
Qed.

Lemma respects_core_call_method args primclex root_path lg dbg err :
  respects_core (API.__call__ args primclex root_path lg dbg err).
Proof.
  apply respects_core_bind; [apply respects_core_lib|].
  intros _. apply respects_core_call.
Qed.

Lemma respects_core_to_str p : respects_core (API.ostringstream_to_str p).
Proof.
  unfold API.ostringstream_to_str.
  repeat (apply respects_core_bind;
          [first [apply respects_core_lib | apply respects_core_call]|];
          intros ?).
  apply respects_core_ret.
Qed.

End MethodFacts.

(** ** The methods, over the model of libccasm *)

Section NativeFacts.
Import Native.
Context {Disk Data : Type} `{!Engine Disk Data}.
Abbreviation nstate := (Native.state Disk Data).
Implicit Types (st : process nstate) (n : nstate) (p h : ptr)
  (c bs : list byte).

Lemma value_nul_free c : Forall (λ b, b ≠ x00) c → value c = c.
Proof.
  induction 1 as [|b c Hb _ IH]; [reflexivity|]. cbn [value].
  unfold is_nul. destruct (Byte.eqb b x00) eqn:E.
  - apply Byte.byte_dec_bl in E. contradiction.
  - by rewrite IH.
Qed.

Lemma copy_into_exact c :
  copy_into (create_string_buffer (Z.of_nat (length c))) c = c.
Proof.
  unfold copy_into, create_string_buffer.
  rewrite Nat2Z.id, repeat_length, firstn_all.
  rewrite drop_ge by (rewrite repeat_length; lia). apply app_nil_r.
Qed.

(** The readout of a live sink: the size is queried, a buffer of that size
    is filled, and the bytes before the first NUL are returned; the native
    state does not change. *)
Lemma ostringstream_to_str_live st s p c :
  API__api st = Some s →
  sinks (native st) !! p = Some c →
  API.ostringstream_to_str p st
  = (Returns (value c),
     {| API__api := API__api st; printed := printed st;
        trace := trace st ++ [ Call_ostringstream_size p;
                               Call_ostringstream_strcpy p (length c) ];
        native := native st |}).
Proof.
  intros E Hc. unfold API.ostringstream_to_str.
  unfold mbind at 1, M_bind at 1. rewrite (lib_ccasm_of_api_loaded st s E).
  unfold mbind at 1, M_bind at 1. unfold call_native at 1. cbn.
  rewrite Hc. cbn.
  unfold API.lib_ccasm_of_api, call_native. run. cbn. rewrite E. cbn.
  rewrite Hc. cbn. rewrite copy_into_exact, <- app_assoc.
  unfold create_string_buffer. rewrite Nat2Z.id, repeat_length. reflexivity.
Qed.

Lemma write_capturing h bs n c :
  sinks n !! h = Some c →
  write h bs n = Some (with_sinks (<[h := c ++ bs]> (sinks n)) n).
Proof. intros E. unfold write. by rewrite E. Qed.

Lemma writes_capturing h (ws : list (list byte)) n c :
  sinks n !! h = Some c →
  ∃ n', writes h ws n = Some n' ∧ sinks n' !! h = Some (c ++ concat ws).
Proof.
  revert n c. induction ws as [|w ws IH]; intros n c E; cbn [writes concat].
  - exists n. by rewrite app_nil_r.
  - rewrite (write_capturing h w n c E). cbn.
    destruct (IH (with_sinks (<[h := c ++ w]> (sinks n)) n) (c ++ w))
      as (n' & Hw & Hs).
    { cbn. apply lookup_insert_eq. }
    exists n'. by rewrite Hw, Hs, app_assoc.
Qed.

Lemma ostringstream_new_live st s :
  API__api st = Some s →
  API.ostringstream_new st
  = (Returns (next_handle (native st)),
     {| API__api := API__api st; printed := printed st;
        trace := trace st ++ [Call_ostringstream_new];
        native := with_next_handle (next_handle (native st) + 1)
                    (with_sinks (<[next_handle (native st) := []]>
                                   (sinks (native st))) (native st)) |}).
Proof.
  intros E. unfold API.ostringstream_new.
  by rewrite (method_is_call _ _ st s E).
Qed.

(** C2, as the code has it: after the creation of a capturing sink and any
    sequence of writes to it in which no byte is NUL, the size query gives
    the total number of bytes written and the readout returns exactly those
    bytes, in order. *)
Theorem readout_round_trip_nul_free st (ws : list (list byte)) :
  is_Some (API__api st) →
  Forall (Forall (λ b, b ≠ x00)) ws →
  ∃ p st1 n',
    API.ostringstream_new st = (Returns p, st1) ∧
    writes p ws (native st1) = Some n' ∧
    casm_ostringstream_size p n'
      = Some (Z.of_nat (sum_list (length <$> ws)), n') ∧
    fst (API.ostringstream_to_str p (with_native n' st1))
      = Returns (concat ws).
Proof.
  intros [s E] Hws. rewrite (ostringstream_new_live st s E).
  eexists _, _. cbn [native].
  destruct (writes_capturing (next_handle (native st)) ws
              (with_next_handle (next_handle (native st) + 1)
                 (with_sinks (<[next_handle (native st) := []]>
                                (sinks (native st))) (native st))) [])
    as (n' & Hw & Hs); [ cbn; apply lookup_insert_eq |].
  exists n'. split; [reflexivity|]. split; [exact Hw|].
  cbn in Hs. split.
  - cbn. rewrite Hs. cbn. do 3 f_equal.
    clear. induction ws as [|w ws IH]; [reflexivity|].
    cbn. rewrite length_app. by rewrite IH.
  - erewrite ostringstream_to_str_live by (cbn; eauto). cbn.
    f_equal. apply value_nul_free. clear -Hws.
    induction Hws; cbn; [constructor|]. apply Forall_app; auto.
Qed.

(** Whatever the bytes, the readout is the written text up to its first
    NUL. *)
Lemma readout_is_value st s p c :
  API__api st = Some s →
  sinks (native st) !! p = Some c →
  fst (API.ostringstream_to_str p st) = Returns (value c).
Proof. intros E Hc. by rewrite (ostringstream_to_str_live st s p c E Hc). Qed.

(** C8: a capturing sink that has just been created holds nothing: the size
    query gives 0 and the readout is empty; writes to other sinks do not
    change that. *)
Theorem fresh_sink_is_empty st :
  is_Some (API__api st) →
  ∃ p st1,
    API.ostringstream_new st = (Returns p, st1) ∧
    casm_ostringstream_size p (native st1) = Some (0%Z, native st1) ∧
    fst (API.ostringstream_to_str p st1) = Returns [] ∧
    ∀ h bs n', h ≠ p → write h bs (native st1) = Some n' →
      casm_ostringstream_size p n' = Some (0%Z, n') ∧
      fst (API.ostringstream_to_str p (with_native n' st1)) = Returns [].
Proof.
  intros [s E]. rewrite (ostringstream_new_live st s E). eexists _, _.
  split; [reflexivity|]. cbn [native].
  set (p := next_handle (native st)).
  split; [|split].
  - cbn. by rewrite lookup_insert_eq.
  - apply (readout_is_value _ s p []); [exact E |]. cbn.
    apply lookup_insert_eq.
  - intros h bs n' Hne Hw.
    assert (Hs : sinks n' !! p = Some []).
    { unfold write in Hw. cbn in Hw.
      rewrite lookup_insert_ne in Hw by done.
      destruct (sinks (native st) !! h).
      - injection Hw as <-. cbn.
        rewrite lookup_insert_ne by done. apply lookup_insert_eq.
      - repeat case_bool_decide; simplify_eq; cbn; apply lookup_insert_eq. }
    split.
    + cbn. by rewrite Hs.
    + apply (readout_is_value _ s p []); [exact E | exact Hs].
Qed.

Lemma status_code_range (s : status) : (0 ≤ status_code s ≤ 8)%Z.
Proof. destruct s; cbn; lia. Qed.

Lemma dispatch_status args primclex root_path lg dbg err n r n' :
  dispatch args primclex root_path lg dbg err n = Some (r, n') →
  ∃ s, r = status_code s.
Proof.
  unfold dispatch. intros H.
  destruct (context_of primclex n) as [ctx|]; [|discriminate H]. cbn in H.
  destruct (write lg _ n) as [n1|]; [|discriminate H]. cbn in H.
  destruct (write dbg _ n1) as [n2|]; [|discriminate H]. cbn in H.
  destruct (write err _ n2) as [n3|]; [|discriminate H]. cbn in H.
  injection H as <- _. eauto.
Qed.

Lemma write_sink h bs n :
  is_sink h n = true →
  ∃ n', write h bs n = Some n' ∧ ∀ h', is_sink h' n' = is_sink h' n.
Proof.
  unfold is_sink, write. intros H.
  destruct (sinks n !! h) as [c|] eqn:E.
  - eexists. split; [reflexivity|]. intros h'. cbn. do 3 f_equal.
    apply bool_decide_ext. destruct (decide (h' = h)) as [->|Hne].
    + rewrite lookup_insert_eq, E. split; eauto.
    + by rewrite lookup_insert_ne.
  - rewrite bool_decide_eq_false_2 in H by (intros [? ?]; discriminate).
    cbn in H. repeat case_bool_decide; try discriminate H; eauto.
Qed.

Lemma dispatch_defined args primclex root_path lg dbg err n :
  is_Some (context_of primclex n) →
  is_sink lg n = true → is_sink dbg n = true → is_sink err n = true →
  is_Some (dispatch args primclex root_path lg dbg err n).
Proof.
  intros [ctx Hc] H1 H2 H3. unfold dispatch. rewrite Hc. cbn.
  destruct (write_sink lg (to_log (run_command args (data <$> ctx)
                                     root_path (disk n))) n H1)
    as (n1 & -> & K1). cbn.
  rewrite <- K1 in H2, H3.
  destruct (write_sink dbg (to_debug_log (run_command args (data <$> ctx)
                                            root_path (disk n))) n1 H2)
    as (n2 & -> & K2). cbn.
  rewrite <- K2 in H3.
  destruct (write_sink err (to_err_log (run_command args (data <$> ctx)
                                          root_path (disk n))) n2 H3)
    as (n3 & -> & K3). cbn. eauto.
Qed.

(** C4: whenever [API.__call__] returns, the integer it returns is one of
    the nine status codes 0..8; and it does return when the libraries are
    loaded, the project context is null or live and the three sinks are
    sinks. *)
Theorem call_status_in_enumeration st args primclex root_path lg dbg err :
  (∀ r st',
     API.__call__ args primclex root_path lg dbg err st = (Returns r, st') →
     (0 ≤ r ≤ 8)%Z) ∧
  (is_Some (API__api st) →
   is_Some (context_of primclex (native st)) →
   is_sink lg (native st) = true →
   is_sink dbg (native st) = true →
   is_sink err (native st) = true →
   ∃ r st',
     API.__call__ args primclex root_path lg dbg err st = (Returns r, st')).
Proof.
  unfold API.__call__. split.
  - intros r st' H. unfold mbind, M_bind in H.
    unfold API.lib_ccasm_of_api in H. run.
    destruct (API__api st); cbn in H; [|discriminate H].
    unfold call_native in H. cbn in H.
    destruct (dispatch args primclex root_path lg dbg err (native st))
      as [[r' n']|] eqn:Ed; [|discriminate H].
    injection H as <- _.
    destruct (dispatch_status _ _ _ _ _ _ _ _ _ Ed) as [code ->].
    apply status_code_range.
  - intros [s E] Hc H1 H2 H3. rewrite (method_is_call _ _ st s E).
    unfold call_native. cbn.
    destruct (dispatch_defined args primclex root_path lg dbg err
                (native st) Hc H1 H2 H3) as [[r n'] ->].
    eauto.
Qed.

Lemma refresh_no_flags (ctx : project Data) (d : Disk) :
  refresh ctx d false false false false false = ctx.
Proof. by destruct ctx as [? ? ? ? []]. Qed.

Lemma casm_primclex_refresh_no_flags n p ctx :
  contexts n !! p = Some ctx →
  casm_primclex_refresh p false false false false false n = Some (tt, n).
Proof.
  intros E. cbn. rewrite E. cbn. rewrite refresh_no_flags.
  rewrite (insert_id _ _ _ E). by destruct n.
Qed.

(** C7: [primclex_refresh] on a live project context with the five flags
    false returns and leaves the native state as it was; so a command
    dispatched after it returns the same status code and leaves the same
    native state, hence the same readout of every capturing sink, as the
    same command dispatched without the refresh. *)
Theorem refresh_without_flags_is_noop st p :
  is_Some (API__api st) →
  is_Some (contexts (native st) !! p) →
  ∃ st1,
    API.primclex_refresh p false false false false false st
      = (Returns tt, st1) ∧
    native st1 = native st ∧
    ∀ args primclex root_path lg dbg err,
      let before := API.__call__ args primclex root_path lg dbg err st in
      let after := API.__call__ args primclex root_path lg dbg err st1 in
      fst after = fst before ∧
      native (snd after) = native (snd before) ∧
      ∀ h, fst (API.ostringstream_to_str h (snd after))
           = fst (API.ostringstream_to_str h (snd before)).
Proof.
  intros [s E] [ctx Hc]. unfold API.primclex_refresh.
  rewrite (method_is_call _ _ st s E). unfold call_native.
  rewrite (casm_primclex_refresh_no_flags _ _ _ Hc).
  eexists. split; [reflexivity|]. split; [reflexivity|].
  intros args primclex root_path lg dbg err. cbv zeta.
  destruct (respects_core_call_method args primclex root_path lg dbg err
              _ st (conj eq_refl eq_refl : same_core
                 {| API__api := API__api st; printed := printed st;
                    trace := trace st ++
                      [Call_primclex_refresh p false false false false false];
                    native := native st |} st))
    as [Hf Hs].
  split; [exact Hf|]. split; [apply Hs|].
  intros h. by apply respects_core_to_str.
Qed.

End NativeFacts.

(** ** The model at work *)

Import Native Examples.

Lemma release_is_passed_through_witness :
  trace (snd (API.ostringstream_delete 4 with_sink))
  = trace with_sink ++ [Call_ostringstream_delete 4].
Proof.
  assert (H : is_Some (API__api with_sink)) by (vm_compute; eauto).
  exact (proj1 (proj2 (proj2 (release_is_passed_through with_sink 4 H)))).
Defined.

(** C3 as the specification words it fails on the code: a capturing sink
    and a project context are each released twice; the second release is
    neither rejected nor prevented, it is the second call of the native
    release entry point on the same handle, where the behaviour of the
    library is undefined. *)
Lemma second_release_reaches_native :
  let st1 := after (API.ostringstream_delete 4) with_project in
  let st2 := after (API.ostringstream_delete 4) st1 in
  let st3 := after (API.primclex_delete 5) st2 in
  fst (API.ostringstream_delete 4 with_project) = Returns tt ∧
  fst (API.ostringstream_delete 4 st1) = Undefined ∧
  fst (API.primclex_delete 5 st2) = Returns tt ∧
  fst (API.primclex_delete 5 st3) = Undefined ∧
  trace (after (API.primclex_delete 5) st3)
  = trace with_project ++
    [ Call_ostringstream_delete 4; Call_ostringstream_delete 4;
      Call_primclex_delete 5; Call_primclex_delete 5 ].
Proof. vm_compute. split_and!; reflexivity. Qed.

Lemma readout_round_trip_nul_free_witness :
  ∃ p st1 n',
    API.ostringstream_new loaded = (Returns p, st1) ∧
    writes p [list_byte_of_string "query "; list_byte_of_string "-k structure"]
           (native st1) = Some n' ∧
    casm_ostringstream_size p n' = Some (18%Z, n') ∧
    fst (API.ostringstream_to_str p (with_native n' st1))
      = Returns (list_byte_of_string "query -k structure").
Proof.
  assert (Ha : is_Some (API__api loaded)) by (vm_compute; eauto).
  assert (Hw : Forall (Forall (λ b, b ≠ x00))
                 [list_byte_of_string "query ";
                  list_byte_of_string "-k structure"])
    by (repeat (constructor; try discriminate)).
  exact (readout_round_trip_nul_free loaded _ Ha Hw).
Defined.

(** C2 as the specification words it fails on the code: three bytes, the
    second of them NUL, are written to a fresh capturing sink; its size is
    3, and the readout returns the first byte alone. *)
Lemma readout_stops_at_nul :
  let text := ["a"; x00; "b"]%byte in
  sinks (native with_sink) !! 4%Z = Some [] ∧
  (st ← written 4 [text] with_sink;
   Some (casm_ostringstream_size 4 (native st) ≫= λ r, Some (fst r),
         fst (API.ostringstream_to_str 4 st)))
  = Some (Some 3%Z, Returns ["a"%byte]) ∧
  ["a"%byte] ≠ text.
Proof. vm_compute. split_and!; (reflexivity || discriminate). Qed.

Lemma call_status_in_enumeration_witness :
  ∃ r st',
    API.__call__ "status" 5 "/proj" 4 null_handle STDERR_handle with_project
      = (Returns r, st') ∧
    (0 ≤ r ≤ 8)%Z.
Proof.
  destruct (call_status_in_enumeration with_project "status" 5 "/proj" 4
              null_handle STDERR_handle) as [Hr Hd].
  assert (Ha : is_Some (API__api with_project)) by (vm_compute; eauto).
  assert (Hc : is_Some (context_of 5 (native with_project)))
    by (vm_compute; eauto).
  destruct (Hd Ha Hc eq_refl eq_refl eq_refl) as (r & st' & E).
  exists r, st'. split; [exact E | exact (Hr r st' E)].
Defined.

Example call_without_project :
  fst (API.__call__ "status" 0 "/nowhere" 4 null_handle 4 with_sink)
    = Returns 3%Z ∧
  (st ← Some (after (API.__call__ "status" 0 "/nowhere" 4 null_handle 4)
                    with_sink);
   Some (fst (API.ostringstream_to_str 4 st)))
  = Some (Returns (list_byte_of_string "statusno project")).
Proof. vm_compute. split; reflexivity. Qed.

Lemma refresh_without_flags_is_noop_witness :
  ∃ st1,
    API.primclex_refresh 5 false false false false false with_project
      = (Returns tt, st1) ∧
    native st1 = native with_project.
Proof.
  assert (Ha : is_Some (API__api with_project)) by (vm_compute; eauto).
  assert (Hc : is_Some (contexts (native with_project) !! 5%Z))
    by (vm_compute; eauto).
  destruct (refresh_without_flags_is_noop with_project 5 Ha Hc)
    as (st1 & E & Hn & _).
  exists st1. split; [exact E | exact Hn].
Defined.

Lemma fresh_sink_is_empty_witness :
  ∃ p st1,
    API.ostringstream_new loaded = (Returns p, st1) ∧
    casm_ostringstream_size p (native st1) = Some (0%Z, native st1) ∧
    fst (API.ostringstream_to_str p st1) = Returns [].
Proof.
  assert (Ha : is_Some (API__api loaded)) by (vm_compute; eauto).
  destruct (fresh_sink_is_empty loaded Ha) as (p & st1 & E & Hs & Hr & _).
  exists p, st1. split; [exact E | split; [exact Hs | exact Hr]].
Defined.
